(** * caddy-jwt: claim validators, token location and identity projection

    A shallow embedding of the Go package [caddyjwt].

    - [src/validator.go] and the second revision of the same file (the
      unnamed source, which adds [strings.EqualFold] and the
      [claimValueIsStringIgnoreCase] validator) are embedded statement by
      statement, in the modules [ValidatorGo] and [ValidatorFold].
    - [src/jwt_test.go] contributes its tables of expected results.
    - [stringify], [desensitizedTokenString] and [Authenticate] live in a
      file that is not among the sources; they are modelled separately
      and every such definition says so. *)

From Stdlib Require Import String Ascii ZArith Lia.
From stdpp Require Import base option list gmap strings.

Local Open Scope string_scope.
Local Open Scope nat_scope.
Set Warnings "-register-all".

(** ** Dynamically typed claim values

    [Token.Get] returns an [interface{}].  The constructors are the dynamic
    types a claim can carry after the token was built or parsed. *)

Inductive Value : Type :=
| VNil                                  (* the nil interface (JSON null) *)
| VString (s : string)                  (* string *)
| VBool (b : bool)                      (* bool *)
| VNumber (literal : string)            (* json.Number: the literal's text *)
| VTime (sec nsec : Z)                  (* time.Time: Unix seconds, nanoseconds *)
| VList (elems : list Value)            (* []interface{} *)
| VMap (fields : list (string * Value)) (* map[string]interface{} *)
| VStringer (typ repr : string)         (* a type with a String() method *)
| VOther (typ : string).                (* any other type, e.g. []int, []string *)

(** The [%T] verb: the name of the dynamic type. *)
Definition typeName (v : Value) : string :=
  match v with
  | VNil => "<nil>"
  | VString _ => "string"
  | VBool _ => "bool"
  | VNumber _ => "json.Number"
  | VTime _ _ => "time.Time"
  | VList _ => "[]interface {}"
  | VMap _ => "map[string]interface {}"
  | VStringer typ _ => typ
  | VOther typ => typ
  end.

(** [v.(string)]: the type assertion with the comma-ok form. *)
Definition assertString (v : Value) : option string :=
  match v with VString s => Some s | _ => None end.

(** [v.([]interface{})]. *)
Definition assertList (v : Value) : option (list Value) :=
  match v with VList l => Some l | _ => None end.

(** [v == s] for an interface [v] and a string [s]: true exactly when the
    dynamic type of [v] is [string] and the two strings are equal. *)
Definition ifaceEqString (v : Value) (s : string) : bool :=
  match v with VString x => bool_decide (x = s) | _ => false end.

(** ** Tokens

    [jwt.Token] is used through [Get] only: a finite map from claim names
    to values. *)

Abbreviation Token := (gmap string Value).

Definition Get (t : Token) (name : string) : option Value := t !! name.

(** [buildToken] of the tests: one [Claim] call per entry. *)
Definition buildToken (claims : list (string * Value)) : Token :=
  list_to_map claims.

(** ** Validation errors

    One constructor per [fmt.Errorf] format of the validators. *)

Inductive error : Type :=
| ErrClaimNotFound (name : string)          (* claim %q not found *)
| ErrClaimNotList (name typ : string)       (* claim %q must be a []interface{} (got %T) *)
| ErrNotSatisfied (name : string)           (* %q not satisfied *)
| ErrClaimDoesNotExist (name : string)      (* %q not satisfied: claim %q does not exist *)
| ErrClaimNotString (name : string)         (* %q not satisfied: claim %q not a string *)
| ErrValuesDoNotMatch (name : string).      (* %q not satisfied: values do not match *)

(** [jwt.ValidationError]; the [nil] error is [None]. *)
Record ValidationError : Type := NewValidationError { Unwrap : error }.

Abbreviation nil_error := (@None ValidationError).

(** The loop shared by both revisions:
    [for _, v := range list { if test(v) { return nil } }; return err]. *)
Fixpoint rangeUntil (test : Value → bool) (list : list Value)
    (err : ValidationError) : option ValidationError :=
  match list with
  | [] => Some err
  | v :: rest => if test v then None else rangeUntil test rest err
  end.

(** ** [src/validator.go]

    The constructor stores [jwt.NewValidationError] in [makeErr]; the error
    it makes is never nil. *)

Module ValidatorGo.

Record claimContainsString : Type :=
  { name : string;
    value : string;
    makeErr : error → ValidationError }.

Definition ClaimContainsString (name value : string) : claimContainsString :=
  {| name := name; value := value; makeErr := NewValidationError |}.

Definition Validate (ccs : claimContainsString) (t : Token)
    : option ValidationError :=
  match Get t ccs.(name) with
  | None => Some (ccs.(makeErr) (ErrClaimNotFound ccs.(name)))
  | Some v =>
    match assertList v with
    | None => Some (ccs.(makeErr) (ErrClaimNotList ccs.(name) (typeName v)))
    | Some list =>
      rangeUntil (fun v => ifaceEqString v ccs.(value)) list
        (ccs.(makeErr) (ErrNotSatisfied ccs.(name)))
    end
  end.

End ValidatorGo.

(** ** The second revision of the validators (unnamed source)

    [strings.EqualFold] belongs to Go's standard library: it is a
    parameter of the section.  [asciiEqualFold] below is its byte-wise
    path, used wherever a concrete instance is needed. *)

Module ValidatorFold.
Section WithEqualFold.

Variable EqualFold : string → string → bool.

Record claimContainsString : Type :=
  { name : string;
    value : string;
    makeErr : error → ValidationError }.

Definition ClaimContainsString (name value : string) : claimContainsString :=
  {| name := name; value := value; makeErr := NewValidationError |}.

Definition elemMatches (expected : string) (v : Value) : bool :=
  match assertString v with
  | Some vs => EqualFold vs expected
  | None => false
  end.

Definition Validate (ccs : claimContainsString) (t : Token)
    : option ValidationError :=
  match Get t ccs.(name) with
  | None => Some (ccs.(makeErr) (ErrClaimNotFound ccs.(name)))
  | Some v =>
    match assertList v with
    | None => Some (ccs.(makeErr) (ErrClaimNotList ccs.(name) (typeName v)))
    | Some list =>
      rangeUntil (elemMatches ccs.(value)) list
        (ccs.(makeErr) (ErrNotSatisfied ccs.(name)))
    end
  end.

Record claimValueIsStringIgnoreCase : Type :=
  { cv_name : string;
    cv_value : string;
    cv_makeErr : error → ValidationError }.

Definition ClaimValueIsStringIgnoreCase (name value : string)
    : claimValueIsStringIgnoreCase :=
  {| cv_name := name; cv_value := value; cv_makeErr := NewValidationError |}.

Definition ValidateIgnoreCase (cv : claimValueIsStringIgnoreCase) (t : Token)
    : option ValidationError :=
  match Get t cv.(cv_name) with
  | None => Some (cv.(cv_makeErr) (ErrClaimDoesNotExist cv.(cv_name)))
  | Some v =>
    match assertString v with
    | None => Some (cv.(cv_makeErr) (ErrClaimNotString cv.(cv_name)))
    | Some vs =>
      if negb (EqualFold vs cv.(cv_value))
      then Some (cv.(cv_makeErr) (ErrValuesDoNotMatch cv.(cv_name)))
      else None
    end
  end.

End WithEqualFold.
End ValidatorFold.

(** ** The byte-wise path of [strings.EqualFold]

    Equal bytes match; otherwise the smaller byte must be an upper-case
    ASCII letter and the larger one its lower-case form.  The strings must
    end together. *)

Definition foldByte (a b : ascii) : bool :=
  let x := nat_of_ascii a in
  let y := nat_of_ascii b in
  if Nat.eqb x y then true
  else
    let sr := Nat.min x y in
    let tr := Nat.max x y in
    Nat.leb 65 sr && Nat.leb sr 90 && Nat.eqb tr (sr + 32).

Fixpoint asciiEqualFold (s t : string) : bool :=
  match s, t with
  | EmptyString, EmptyString => true
  | String a s', String b t' => foldByte a b && asciiEqualFold s' t'
  | _, _ => false
  end.

(** ** Diagnostics: the desensitized token

    The marker written between the kept ends is the one-rune string
    U+2026, three bytes in UTF-8. *)

Definition ellipsis : string :=
  String (ascii_of_nat 226) (String (ascii_of_nat 128)
    (String (ascii_of_nat 166) EmptyString)).

(** [token[:k]] and [token[len(token)-k:]]. *)
Definition firstBytes (k : nat) (token : string) : string :=
  substring 0 k token.

Definition lastBytes (k : nat) (token : string) : string :=
  substring (String.length token - k) k token.

(** The table of [Test_desensitizedTokenString] in [src/jwt_test.go]:
    input and expected output, in the order of the source. *)
Definition Test_desensitizedTokenString_cases : list (string * string) :=
  [ ("", "");
    ("abc", "abc");
    ("abcdef", "abcdef");
    ("abcdefg", "ab…fg");
    ("abcdefeijk", "abc…ijk");
    ("abcdefghijklmnopqrstuvwxyz", "abcdefgh…stuvwxyz");
    ("abcdefghijklmnopqrstuvwxyzabcdefghijklmnopqrstuv",
     "abcdefghijklmnop…ghijklmnopqrstuv");
    ("abcdefghijklmnopqrstuvwxyzabcdefghijklmnopqrstuvwxyz",
     "abcdefghijklmnop…klmnopqrstuvwxyz");
    ("abcdefghijklmnopqrstuvwxyzabcdefghijklmnopqrstuvwxyzabcdefghijklmnopqrstuvwxyzabcdefghijklmnopqrstuvwxyz",
     "abcdefghijklmnop…klmnopqrstuvwxyz") ].

(** A candidate implementation passes the test when it maps every input
    of the table to the expected output. *)
Definition passesDesensitizedTest (f : string → string) : bool :=
  forallb (fun c => bool_decide (f c.1 = c.2))
    Test_desensitizedTokenString_cases.

(** Modelled from the spec: the body of [desensitizedTokenString] is not
    among the sources.  This is the shape the spec gives it: a token of at
    most 6 bytes is returned unmodified; a longer one gives its first and
    its last [keep n] bytes around one ellipsis, [n] being its length.
    (Where [keep n] exceeds the length Go's slices panic; here the whole
    token is taken.) *)
Definition desensitizeWith (keep : nat → nat) (token : string) : string :=
  let n := String.length token in
  if (n <=? 6)%nat then token
  else firstBytes (keep n) token +:+ ellipsis +:+ lastBytes (keep n) token.

(** Modelled from the spec: the numbers of the spec's table: 2 bytes on
    each side for lengths 7 to 10, 16 on each side for anything longer. *)
Definition specKeep (n : nat) : nat := if (n <=? 10)%nat then 2 else 16.

(** Modelled from the spec: [desensitizedTokenString] as the spec words
    it, the shape above with the numbers of the spec's table. *)
Definition desensitizedTokenString (token : string) : string :=
  desensitizeWith specKeep token.

(** ** Stringification *)

Section Stringify.

(** [t.UTC().Format(time.RFC3339Nano)] belongs to Go's standard library:
    it is a parameter, from the Unix seconds and the nanoseconds of an
    instant to its text. *)
Variable formatTime : Z → Z → string.

(** Modelled from the spec: the body of [stringify] is not among the
    sources.  One case per line of the spec's stringification policy; the
    types it does not list ([VMap], [VOther]) give the empty string. *)
Fixpoint stringify (val : Value) : string :=
  match val with
  | VNil => ""
  | VString s => s
  | VBool b => if b then "true" else "false"
  | VNumber literal => literal
  | VTime sec nsec => formatTime sec nsec
  | VList elems => String.concat "," (List.map stringify elems)
  | VStringer _ repr => repr
  | VMap _ => ""
  | VOther _ => ""
  end.


End Stringify.


(** ** Authentication

    [Authenticate] and its helpers live in the file that is not among the
    sources.  The records keep the field names the tests use. *)

Record JWTAuth : Type :=
  { FromHeader : list string;
    FromQuery : list string;
    FromCookies : list string;
    UserClaims : list string;
    MetaClaims : list (string * string);
    IssuerWhitelist : list string;
    AudienceWhitelist : list string;
    VerifyClaims : list (string * string) }.

(** The request as the engine sees it: header, query-parameter and cookie
    values by name; an absent name reads as the empty string. *)
Record Request : Type :=
  { Header : gmap string string;
    Query : gmap string string;
    Cookies : gmap string string }.

Record User : Type :=
  { ID : string;
    Metadata : gmap string string }.

Definition emptyUser : User := {| ID := ""; Metadata := ∅ |}.

Inductive AuthError : Type :=
| ErrMissingToken                       (* no carrier holds a value *)
| ErrInvalidToken                       (* malformed, or the signature fails *)
| ErrExpired                            (* exp is not in the future *)
| ErrIssuedInFuture                     (* iat is in the future *)
| ErrNotYetValid                        (* nbf is in the future *)
| ErrInvalidIssuer
| ErrInvalidAudience
| ErrClaimNotSatisfied (e : ValidationError)
| ErrEmptyUserClaim.                    (* no user identity found *)

Definition carrierValue (m : gmap string string) (name : string) : string :=
  default "" (m !! name).

(** Modelled from the spec: the header rule of the Token Locator, absent
    from the sources: a value that begins with ["Bearer "] loses that
    prefix, any other value is returned unmodified. *)
Definition stripBearer (v : string) : string :=
  if String.prefix "Bearer " v
  then substring 7 (String.length v - 7) v
  else v.

(** Modelled from the spec: the non-empty values of the named carriers, in
    the order of the configured names ([normalize] is applied to headers
    only). *)
Definition tokensFrom (normalize : string → string) (m : gmap string string)
    (names : list string) : list string :=
  flat_map (fun name =>
    let raw := carrierValue m name in
    if bool_decide (raw = "") then [] else [normalize raw]) names.

(** Modelled from the spec: the Token Locator, absent from the sources:
    headers in order, then query parameters in order, then cookies in
    order. *)
Definition candidates (ja : JWTAuth) (r : Request) : list string :=
  tokensFrom stripBearer r.(Header) ja.(FromHeader) ++
  tokensFrom id r.(Query) ja.(FromQuery) ++
  tokensFrom id r.(Cookies) ja.(FromCookies).

(** Modelled from the spec: the defaults of a configuration, absent from
    the sources: the single header [Authorization] when no carrier is
    configured, the single claim [sub] when no ID claim is. *)
Definition withDefaults (ja : JWTAuth) : JWTAuth :=
  {| FromHeader :=
       match ja.(FromHeader), ja.(FromQuery), ja.(FromCookies) with
       | [], [], [] => ["Authorization"]
       | h, _, _ => h
       end;
     FromQuery := ja.(FromQuery);
     FromCookies := ja.(FromCookies);
     UserClaims :=
       match ja.(UserClaims) with [] => ["sub"] | cs => cs end;
     MetaClaims := ja.(MetaClaims);
     IssuerWhitelist := ja.(IssuerWhitelist);
     AudienceWhitelist := ja.(AudienceWhitelist);
     VerifyClaims := ja.(VerifyClaims) |}.

Section Identity.

Variable formatTime : Z → Z → string.

(** Modelled from the spec: the ID of the Identity Projector, absent from
    the sources: the candidates are scanned in order and the first one
    whose claim stringifies to a non-empty string gives the ID; the empty
    string says that none did. *)
Definition claimText (t : Token) (name : string) : string :=
  match Get t name with
  | Some v => stringify formatTime v
  | None => ""
  end.

Fixpoint getUserID (t : Token) (names : list string) : string :=
  match names with
  | [] => ""
  | name :: rest =>
    let id := claimText t name in
    if bool_decide (id = "") then getUserID t rest else id
  end.

End Identity.

(** Dot-separated paths of the metadata rules. *)
Fixpoint splitOn (sep : ascii) (s : string) : list string :=
  match s with
  | EmptyString => [""]
  | String c r =>
    let parts := splitOn sep r in
    if bool_decide (c = sep) then "" :: parts
    else match parts with
         | p :: ps => String c p :: ps
         | [] => [String c ""]
         end
  end.

Fixpoint lookupField (fields : list (string * Value)) (k : string)
    : option Value :=
  match fields with
  | [] => None
  | (k', v) :: rest => if bool_decide (k' = k) then Some v else lookupField rest k
  end.

Fixpoint queryPath (v : Value) (segments : list string) : Value :=
  match segments with
  | [] => v
  | k :: rest =>
    match v with
    | VMap fields =>
      match lookupField fields k with
      | Some v' => queryPath v' rest
      | None => VNil
      end
    | _ => VNil
    end
  end.

(** Modelled from the spec: the metadata of the Identity Projector, absent
    from the sources: each rule resolves its path segment by segment
    through nested mappings (a missing segment gives the empty result) and
    stores the stringified value under its key. *)
Definition queryNested (t : Token) (path : string) : Value :=
  match splitOn "."%char path with
  | [] => VNil
  | k :: rest =>
    match Get t k with
    | Some v => queryPath v rest
    | None => VNil
    end
  end.

Definition getUserMetadata (formatTime : Z → Z → string) (t : Token)
    (rules : list (string * string)) : gmap string string :=
  list_to_map
    (List.map (fun rule =>
       (rule.2, stringify formatTime (queryNested t rule.1))) rules).

(** Modelled from the spec: the whitelist checks of the Claims Verifier,
    absent from the sources.  The issuer must be a string equal to an
    entry.  An audience that is a single string must equal an entry; an
    audience that is a list needs one element equal to an entry. *)
Definition inWhitelist (whitelist : list string) (s : string) : bool :=
  existsb (fun w => bool_decide (s = w)) whitelist.

Definition verifyIssuer (whitelist : list string) (t : Token) : bool :=
  match Get t "iss" with
  | Some (VString iss) => inWhitelist whitelist iss
  | _ => false
  end.

Definition verifyAudience (whitelist : list string) (t : Token) : bool :=
  match Get t "aud" with
  | Some (VString aud) => inWhitelist whitelist aud
  | Some (VList auds) =>
    existsb (fun v => match assertString v with
                      | Some aud => inWhitelist whitelist aud
                      | None => false
                      end) auds
  | _ => false
  end.

Section Authenticate.

(** The collaborators outside the engine: the time format of Go's library,
    [strings.EqualFold], the JWT library's parse-and-verify against the key
    material ([None] when the token is malformed or its signature fails)
    and the clock. *)
Variable formatTime : Z → Z → string.
Variable EqualFold : string → string → bool.
Variable parseVerified : string → option Token.
Variable now : Z.

(** Modelled from the spec: the temporal claims, absent from the
    sources: [exp], when present, lies in the future; [iat] and [nbf],
    when present, do not. *)
Definition timeClaim (t : Token) (name : string) (ok : Z → bool)
    (err : AuthError) : option AuthError :=
  match Get t name with
  | None => None
  | Some (VTime sec _) => if ok sec then None else Some err
  | Some _ => Some ErrInvalidToken
  end.

(** Modelled from the spec: one entry of the claim-predicate mapping,
    absent from the sources: a string-typed claim goes to the
    equals-string-ignore-case validator, anything else to the
    contains-string validator. *)
Definition verifyClaim (t : Token) (entry : string * string)
    : option ValidationError :=
  match Get t entry.1 with
  | Some (VString _) =>
    ValidatorFold.ValidateIgnoreCase EqualFold
      (ValidatorFold.ClaimValueIsStringIgnoreCase entry.1 entry.2) t
  | _ =>
    ValidatorFold.Validate EqualFold
      (ValidatorFold.ClaimContainsString entry.1 entry.2) t
  end.

Fixpoint verifyClaims (t : Token) (entries : list (string * string))
    : option ValidationError :=
  match entries with
  | [] => None
  | entry :: rest =>
    match verifyClaim t entry with
    | Some e => Some e
    | None => verifyClaims t rest
    end
  end.

(** Modelled from the spec: the checks of the Claims Verifier on a
    parsed token, absent from the sources; all of them must pass. *)
Definition validateToken (ja : JWTAuth) (t : Token) : option AuthError :=
  match timeClaim t "exp" (fun sec => (now <? sec)%Z) ErrExpired with
  | Some e => Some e
  | None =>
  match timeClaim t "iat" (fun sec => (sec <=? now)%Z) ErrIssuedInFuture with
  | Some e => Some e
  | None =>
  match timeClaim t "nbf" (fun sec => (sec <=? now)%Z) ErrNotYetValid with
  | Some e => Some e
  | None =>
    if match ja.(IssuerWhitelist) with
       | [] => false
       | wl => negb (verifyIssuer wl t)
       end
    then Some ErrInvalidIssuer
    else if match ja.(AudienceWhitelist) with
            | [] => false
            | wl => negb (verifyAudience wl t)
            end
    then Some ErrInvalidAudience
    else match verifyClaims t ja.(VerifyClaims) with
         | Some e => Some (ErrClaimNotSatisfied e)
         | None => None
         end
  end end end.

(** Modelled from the spec: one raw token through the pipeline, absent
    from the sources: parse and verify, validate, project the identity. *)
Definition authenticateToken (ja : JWTAuth) (raw : string)
    : AuthError + User :=
  match parseVerified raw with
  | None => inl ErrInvalidToken
  | Some t =>
    match validateToken ja t with
    | Some e => inl e
    | None =>
      let id := getUserID formatTime t ja.(UserClaims) in
      if bool_decide (id = "") then inl ErrEmptyUserClaim
      else inr {| ID := id;
                  Metadata := getUserMetadata formatTime t ja.(MetaClaims) |}
    end
  end.

(** Modelled from the spec: the loop of [Authenticate], absent from the
    sources: the located tokens are tried in order; the first one that
    passes gives the user, and when none does the result is the empty
    user, [false] and the error of the last attempt. *)
Fixpoint tryTokens (ja : JWTAuth) (raws : list string) (err : AuthError)
    : User * bool * option AuthError :=
  match raws with
  | [] => (emptyUser, false, Some err)
  | raw :: rest =>
    match authenticateToken ja raw with
    | inr user => (user, true, None)
    | inl e => tryTokens ja rest e
    end
  end.

Definition Authenticate (ja : JWTAuth) (r : Request)
    : User * bool * option AuthError :=
  tryTokens ja (candidates ja r) ErrMissingToken.

End Authenticate.

(** A carrier is passed over when it holds no value or when the token it
    holds is rejected. *)
Definition passedOver (auth : string → AuthError + User)
    (normalize : string → string) (m : gmap string string) (name : string)
    : Prop :=
  carrierValue m name = "" ∨
  ∃ e, auth (normalize (carrierValue m name)) = inl e.

(** ** Fixtures of [src/jwt_test.go]

    [tokenString] stands for the string [issueTokenString] returns; the
    library accepts it and nothing else, in particular not
    [tokenString+"INVALID"]. *)

Definition tokenString : string := "eyJhbGciOiJIUzI1NiJ9.claims.signature".

Definition issued (claims : list (string * Value)) (raw : string)
    : option Token :=
  if bool_decide (raw = tokenString) then Some (buildToken claims) else None.

(** The text of the one instant the tests spell out
    ([TestAuthenticate_PopulateUserMetadata]), for the places that need a
    concrete formatter. *)
Definition testTimeText (sec nsec : Z) : string :=
  if bool_decide (sec = 946826598%Z ∧ nsec = 0%Z)
  then "2000-01-02T15:23:18Z" else "".

Definition emptyRequest : Request :=
  {| Header := ∅; Query := ∅; Cookies := ∅ |}.

Definition authorizationRequest : Request :=
  {| Header := {[ "Authorization" := tokenString ]};
     Query := ∅; Cookies := ∅ |}.

(** [TestAuthenticate_FromQuery]. *)
Definition fromQueryAuth : JWTAuth :=
  withDefaults
    {| FromHeader := []; FromQuery := ["access_token"; "token"];
       FromCookies := []; UserClaims := []; MetaClaims := [];
       IssuerWhitelist := []; AudienceWhitelist := []; VerifyClaims := [] |}.

Definition invalidThenValidQuery : Request :=
  {| Header := ∅;
     Query := {[ "access_token" := tokenString +:+ "INVALID";
                 "token" := tokenString ]};
     Cookies := ∅ |}.

Definition bothInvalidQuery : Request :=
  {| Header := ∅;
     Query := {[ "access_token" := tokenString +:+ "INVALID";
                 "token" := tokenString +:+ "INVALID" ]};
     Cookies := ∅ |}.

(** [TestAuthenticate_CustomUserClaims]. *)
Definition userClaimsAuth (names : list string) : JWTAuth :=
  withDefaults
    {| FromHeader := []; FromQuery := []; FromCookies := [];
       UserClaims := names; MetaClaims := [];
       IssuerWhitelist := []; AudienceWhitelist := []; VerifyClaims := [] |}.






(** The token of [TestAuthenticate_VerifyClaim] with an array role (after
    the JSON round trip the array is a [[]interface{}]), and the ones with
    a single role. *)
Definition arrayRoleToken : Token :=
  buildToken [ ("sub", VString "ggicci");
               ("iss", VString "https://api.github.com");
               ("role", VList [VString "foo"; VString "test"]) ].

Definition singleRoleToken : Token :=
  buildToken [ ("sub", VString "ggicci");
               ("iss", VString "https://api.github.com");
               ("role", VString "test") ].

Definition numberListToken : Token :=
  buildToken [ ("sub", VString "ggicci");
               ("years", VList [VNumber "1991"; VBool true; VNil]) ].

Definition subjectClaims : list (string * Value) :=
  [ ("sub", VString "ggicci") ].


Definition usernameOnlyClaims : list (string * Value) :=
  [ ("username", VString "ggicci") ].



Definition bearerRequest : Request :=
  {| Header := {[ "Authorization" := "Bearer " +:+ tokenString ]};
     Query := {[ "token" := tokenString +:+ "INVALID" ]};
     Cookies := ∅ |}.

Definition headerAndQueryAuth : JWTAuth :=
  withDefaults
    {| FromHeader := ["X-Api-Token"; "Authorization"];
       FromQuery := ["token"];
       FromCookies := ["session"]; UserClaims := []; MetaClaims := [];
       IssuerWhitelist := []; AudienceWhitelist := []; VerifyClaims := [] |}.

(** * Properties *)

(** ** The validators of the sources *)

Lemma rangeUntil_cases test l err :
  rangeUntil test l err = None ∨ rangeUntil test l err = Some err.
Proof.
  induction l as [|v rest IH]; simpl; [by right|].
  destruct (test v); [by left | exact IH].
Qed.

Lemma rangeUntil_None test l err :
  rangeUntil test l err = None ↔ ∃ v, v ∈ l ∧ test v = true.
Proof.
  induction l as [|v rest IH]; simpl.
  - split; [done | intros (v & Hv & _); by apply elem_of_nil in Hv].
  - destruct (test v) eqn:Htest.
    + split; [intros _; exists v; split; [left | done] | done].
    + rewrite IH. split.
      * intros (w & Hw & Ht). exists w. split; [by right | done].
      * intros (w & Hw & Ht). apply elem_of_cons in Hw as [-> | Hw].
        -- congruence.
        -- by exists w.
Qed.

Lemma rangeUntil_Some test l err :
  (∀ v, v ∈ l → test v = false) → rangeUntil test l err = Some err.
Proof.
  intros Hall. destruct (rangeUntil_cases test l err) as [Hn | Hs]; [|done].
  apply rangeUntil_None in Hn as (v & Hv & Ht).
  rewrite (Hall v Hv) in Ht. discriminate.
Qed.

Lemma ifaceEqString_true v s : ifaceEqString v s = true ↔ v = VString s.
Proof.
  destruct v; simpl; try (split; [discriminate | intros [=]]).
  rewrite bool_decide_eq_true. split; [by intros -> | by intros [= ->]].
Qed.

Lemma elemMatches_true EqualFold expected v :
  ValidatorFold.elemMatches EqualFold expected v = true ↔
  ∃ vs, v = VString vs ∧ EqualFold vs expected = true.
Proof.
  unfold ValidatorFold.elemMatches.
  destruct v; simpl; try (split; [discriminate | by intros (? & [=] & _)]).
  split; [intros H; by eexists | by intros (? & [= <-] & H)].
Qed.

Lemma foldByte_refl a : foldByte a a = true.
Proof. unfold foldByte. by rewrite Nat.eqb_refl. Qed.

Lemma asciiEqualFold_refl s : asciiEqualFold s s = true.
Proof.
  induction s as [|a s IH]; simpl; [done|].
  by rewrite foldByte_refl, IH.
Qed.

(** C1 (as amended).  For a claim that is present and holds a list, the
    validator of the second revision returns nil exactly when some element
    is a string that [strings.EqualFold] matches with the expected value;
    the validator of [src/validator.go] returns nil exactly when some
    element is the expected string itself. *)
Theorem containsString_list_spec
    (EqualFold : string → string → bool) (t : Token) (n v : string)
    (l : list Value) :
  Get t n = Some (VList l) →
  (ValidatorFold.Validate EqualFold (ValidatorFold.ClaimContainsString n v) t
     = None ↔ ∃ s, VString s ∈ l ∧ EqualFold s v = true) ∧
  (ValidatorGo.Validate (ValidatorGo.ClaimContainsString n v) t
     = None ↔ VString v ∈ l).
Proof.
  intros Hget. unfold ValidatorFold.Validate, ValidatorGo.Validate. simpl.
  rewrite Hget. simpl. split.
  - rewrite rangeUntil_None. split.
    + intros (x & Hx & Hm). apply elemMatches_true in Hm as (s & -> & Hs).
      by exists s.
    + intros (s & Hs & Hf). exists (VString s). split; [done|].
      apply elemMatches_true. by exists s.
  - rewrite rangeUntil_None. split.
    + intros (x & Hx & Hm). apply ifaceEqString_true in Hm. by subst.
    + intros Hin. exists (VString v). split; [done|].
      by apply ifaceEqString_true.
Qed.

Lemma containsString_list_spec_witness :
  Get arrayRoleToken "role" = Some (VList [VString "foo"; VString "test"]) ∧
  ValidatorFold.Validate asciiEqualFold
    (ValidatorFold.ClaimContainsString "role" "TEST") arrayRoleToken = None ∧
  ValidatorFold.Validate asciiEqualFold
    (ValidatorFold.ClaimContainsString "role" "test") arrayRoleToken = None ∧
  ValidatorGo.Validate
    (ValidatorGo.ClaimContainsString "role" "test") arrayRoleToken = None.
Proof.
  assert (Hget : Get arrayRoleToken "role"
                 = Some (VList [VString "foo"; VString "test"]))
    by reflexivity.
  destruct (containsString_list_spec asciiEqualFold _ _ "TEST" _ Hget)
    as [HfoldUpper _].
  destruct (containsString_list_spec asciiEqualFold _ _ "test" _ Hget)
    as [HfoldLower Hexact].
  split; [exact Hget|]. split; [|split].
  - apply HfoldUpper. exists "test". split; [right; left | reflexivity].
  - apply HfoldLower. exists "test". split; [right; left | reflexivity].
  - apply Hexact. right; left.
Defined.

(** C1 (as stated) fails on [src/validator.go]: the list of the claim holds
    "test", which matches the expected "TEST" when case is ignored, and the
    validator returns the error "not satisfied". *)
Lemma containsString_exact_rejects_other_case :
  Get arrayRoleToken "role" = Some (VList [VString "foo"; VString "test"]) ∧
  (∃ s, VString s ∈ [VString "foo"; VString "test"] ∧
        asciiEqualFold s "TEST" = true) ∧
  ValidatorGo.Validate (ValidatorGo.ClaimContainsString "role" "TEST")
    arrayRoleToken = Some (NewValidationError (ErrNotSatisfied "role")).
Proof.
  split; [reflexivity|]. split; [|reflexivity].
  exists "test". split; [right; left | reflexivity].
Qed.

(** C2 (as amended).  [src/validator.go] is the stricter revision:
    whenever its validator returns nil, so does the validator of the second
    revision ([strings.EqualFold] matches every string with itself), and
    the two return the same error for an absent claim and for a claim that
    is not a list. *)
Theorem exact_refines_fold
    (EqualFold : string → string → bool) (t : Token) (n v : string) :
  (∀ s, EqualFold s s = true) →
  (ValidatorGo.Validate (ValidatorGo.ClaimContainsString n v) t = None →
   ValidatorFold.Validate EqualFold (ValidatorFold.ClaimContainsString n v) t
     = None) ∧
  ((∀ l, Get t n ≠ Some (VList l)) →
   ValidatorGo.Validate (ValidatorGo.ClaimContainsString n v) t =
   ValidatorFold.Validate EqualFold (ValidatorFold.ClaimContainsString n v) t).
Proof.
  intros Hrefl. split.
  - unfold ValidatorGo.Validate, ValidatorFold.Validate. simpl.
    destruct (Get t n) as [x|]; [|done].
    destruct (assertList x) as [l|]; [|done].
    rewrite !rangeUntil_None. intros (w & Hw & Heq).
    exists w. split; [done|].
    apply ifaceEqString_true in Heq as ->.
    apply elemMatches_true. exists v. by rewrite Hrefl.
  - intros Hnot. unfold ValidatorGo.Validate, ValidatorFold.Validate. simpl.
    destruct (Get t n) as [x|]; [|done].
    destruct x; simpl; try done. by destruct (Hnot elems).
Qed.

Lemma exact_refines_fold_witness :
  ValidatorFold.Validate asciiEqualFold
    (ValidatorFold.ClaimContainsString "role" "test") arrayRoleToken = None ∧
  ValidatorGo.Validate (ValidatorGo.ClaimContainsString "role" "test")
    singleRoleToken =
  ValidatorFold.Validate asciiEqualFold
    (ValidatorFold.ClaimContainsString "role" "test") singleRoleToken.
Proof.
  destruct (exact_refines_fold asciiEqualFold arrayRoleToken "role" "test"
              asciiEqualFold_refl) as [Himp _].
  destruct (exact_refines_fold asciiEqualFold singleRoleToken "role" "test"
              asciiEqualFold_refl) as [_ Hsame].
  split.
  - apply Himp. reflexivity.
  - apply Hsame. intros l. vm_compute. discriminate.
Defined.

(** C2 (as stated) fails: for the claim ["foo","test"] and the expected
    value "TEST" the second revision returns nil and [src/validator.go]
    returns an error. *)
Lemma revisions_differ_on_case :
  ¬ (ValidatorGo.Validate (ValidatorGo.ClaimContainsString "role" "TEST")
       arrayRoleToken = None ↔
     ValidatorFold.Validate asciiEqualFold
       (ValidatorFold.ClaimContainsString "role" "TEST") arrayRoleToken = None).
Proof.
  intros [_ Hback].
  assert (Hfold : ValidatorFold.Validate asciiEqualFold
            (ValidatorFold.ClaimContainsString "role" "TEST") arrayRoleToken
            = None) by reflexivity.
  specialize (Hback Hfold). vm_compute in Hback. discriminate.
Qed.

(** C7.  The equals-string-ignore-case validator returns nil exactly when
    the claim is present, string-typed and matched by [strings.EqualFold];
    it returns an error that names the reason when the claim is absent,
    when its value is not a string, and when the strings do not match. *)
Theorem equalsIgnoreCase_spec
    (EqualFold : string → string → bool) (t : Token) (n v : string) :
  let validate :=
    ValidatorFold.ValidateIgnoreCase EqualFold
      (ValidatorFold.ClaimValueIsStringIgnoreCase n v) t in
  (validate = None ↔
   ∃ vs, Get t n = Some (VString vs) ∧ EqualFold vs v = true) ∧
  (Get t n = None →
   validate = Some (NewValidationError (ErrClaimDoesNotExist n))) ∧
  (∀ x, Get t n = Some x → assertString x = None →
   validate = Some (NewValidationError (ErrClaimNotString n))) ∧
  (∀ vs, Get t n = Some (VString vs) → EqualFold vs v = false →
   validate = Some (NewValidationError (ErrValuesDoNotMatch n))).
Proof.
  unfold ValidatorFold.ValidateIgnoreCase. simpl.
  split; [|split; [|split]].
  - destruct (Get t n) as [x|]; [|split; [done | by intros (? & [=] & _)]].
    destruct x; simpl; try (split; [done | by intros (? & [=] & _)]).
    destruct (EqualFold s v) eqn:Hf; simpl.
    + split; [intros _; by exists s | done].
    + split; [done | intros (vs & [= <-] & Hvs); congruence].
  - by intros ->.
  - intros x -> Hx. by rewrite Hx.
  - intros vs -> Hf. simpl. by rewrite Hf.
Qed.

Lemma equalsIgnoreCase_spec_witness :
  ValidatorFold.ValidateIgnoreCase asciiEqualFold
    (ValidatorFold.ClaimValueIsStringIgnoreCase "role" "TEST") singleRoleToken
    = None ∧
  ValidatorFold.ValidateIgnoreCase asciiEqualFold
    (ValidatorFold.ClaimValueIsStringIgnoreCase "role" "foo") singleRoleToken
    = Some (NewValidationError (ErrValuesDoNotMatch "role")) ∧
  ValidatorFold.ValidateIgnoreCase asciiEqualFold
    (ValidatorFold.ClaimValueIsStringIgnoreCase "role" "test") arrayRoleToken
    = Some (NewValidationError (ErrClaimNotString "role")) ∧
  ValidatorFold.ValidateIgnoreCase asciiEqualFold
    (ValidatorFold.ClaimValueIsStringIgnoreCase "admin" "test") arrayRoleToken
    = Some (NewValidationError (ErrClaimDoesNotExist "admin")).
Proof.
  split; [|split; [|split]].
  - apply (equalsIgnoreCase_spec asciiEqualFold singleRoleToken "role" "TEST").
    exists "test". split; reflexivity.
  - apply (equalsIgnoreCase_spec asciiEqualFold singleRoleToken "role" "foo")
      with (vs := "test"); reflexivity.
  - apply (equalsIgnoreCase_spec asciiEqualFold arrayRoleToken "role" "test")
      with (x := VList [VString "foo"; VString "test"]); reflexivity.
  - apply (equalsIgnoreCase_spec asciiEqualFold arrayRoleToken "admin" "test").
    reflexivity.
Defined.

(** C8.  Both revisions of the contains-string validator return an error
    when the claim is absent and when its value is not a list, whatever the
    value is: a scalar equal to the expected string is rejected too. *)
Theorem containsString_rejects_absent_and_scalar
    (EqualFold : string → string → bool) (t : Token) (n v : string) :
  (Get t n = None →
   ValidatorGo.Validate (ValidatorGo.ClaimContainsString n v) t
     = Some (NewValidationError (ErrClaimNotFound n)) ∧
   ValidatorFold.Validate EqualFold (ValidatorFold.ClaimContainsString n v) t
     = Some (NewValidationError (ErrClaimNotFound n))) ∧
  (∀ x, Get t n = Some x → (∀ l, x ≠ VList l) →
   ValidatorGo.Validate (ValidatorGo.ClaimContainsString n v) t
     = Some (NewValidationError (ErrClaimNotList n (typeName x))) ∧
   ValidatorFold.Validate EqualFold (ValidatorFold.ClaimContainsString n v) t
     = Some (NewValidationError (ErrClaimNotList n (typeName x)))).
Proof.
  unfold ValidatorGo.Validate, ValidatorFold.Validate. simpl. split.
  - by intros ->.
  - intros x -> Hx. destruct x; simpl; try done. by destruct (Hx elems).
Qed.

Lemma containsString_rejects_absent_and_scalar_witness :
  (ValidatorGo.Validate (ValidatorGo.ClaimContainsString "role" "test")
     singleRoleToken
     = Some (NewValidationError (ErrClaimNotList "role" "string")) ∧
   ValidatorFold.Validate asciiEqualFold
     (ValidatorFold.ClaimContainsString "role" "test") singleRoleToken
     = Some (NewValidationError (ErrClaimNotList "role" "string"))) ∧
  (ValidatorGo.Validate (ValidatorGo.ClaimContainsString "admin" "test")
     singleRoleToken
     = Some (NewValidationError (ErrClaimNotFound "admin")) ∧
   ValidatorFold.Validate asciiEqualFold
     (ValidatorFold.ClaimContainsString "admin" "test") singleRoleToken
     = Some (NewValidationError (ErrClaimNotFound "admin"))).
Proof.
  split.
  - apply (containsString_rejects_absent_and_scalar asciiEqualFold
             singleRoleToken "role" "test") with (x := VString "test");
      [reflexivity | discriminate].
  - apply (containsString_rejects_absent_and_scalar asciiEqualFold
             singleRoleToken "admin" "test").
    reflexivity.
Defined.

(** C10.  When the claim is a list without any string-typed element, both
    revisions of the contains-string validator return the error "not
    satisfied", whatever the expected value is. *)
Theorem containsString_ignores_non_strings
    (EqualFold : string → string → bool) (t : Token) (n v : string)
    (l : list Value) :
  Get t n = Some (VList l) →
  (∀ x, x ∈ l → assertString x = None) →
  ValidatorGo.Validate (ValidatorGo.ClaimContainsString n v) t
    = Some (NewValidationError (ErrNotSatisfied n)) ∧
  ValidatorFold.Validate EqualFold (ValidatorFold.ClaimContainsString n v) t
    = Some (NewValidationError (ErrNotSatisfied n)).
Proof.
  intros Hget Hnone.
  unfold ValidatorGo.Validate, ValidatorFold.Validate. simpl.
  rewrite Hget. simpl. split; apply rangeUntil_Some; intros x Hx.
  - specialize (Hnone x Hx). by destruct x.
  - unfold ValidatorFold.elemMatches. by rewrite (Hnone x Hx).
Qed.

Lemma containsString_ignores_non_strings_witness :
  stringify testTimeText (VNumber "1991") = "1991" ∧
  ValidatorGo.Validate (ValidatorGo.ClaimContainsString "years" "1991")
    numberListToken = Some (NewValidationError (ErrNotSatisfied "years")) ∧
  ValidatorFold.Validate asciiEqualFold
    (ValidatorFold.ClaimContainsString "years" "1991") numberListToken
    = Some (NewValidationError (ErrNotSatisfied "years")).
Proof.
  split; [reflexivity|].
  apply (containsString_ignores_non_strings asciiEqualFold numberListToken
           "years" "1991" [VNumber "1991"; VBool true; VNil]);
    [reflexivity|].
  intros x Hx. repeat (apply elem_of_cons in Hx as [-> | Hx]; [reflexivity|]).
  by apply elem_of_nil in Hx.
Defined.

(** ** The desensitized token *)





(** Whatever the body of the function is, it cannot pass the test of the
    repository and follow the table of the spec: the test wants three
    bytes kept on each side of a 10-byte token and eight of a 26-byte
    token. *)
Lemma desensitized_test_excludes_table (f : string → string) :
  passesDesensitizedTest f = true →
  f "abcdefeijk" ≠ desensitizedTokenString "abcdefeijk" ∧
  f "abcdefghijklmnopqrstuvwxyz"
    ≠ desensitizedTokenString "abcdefghijklmnopqrstuvwxyz".
Proof.
  unfold passesDesensitizedTest, Test_desensitizedTokenString_cases.
  simpl. rewrite !andb_true_iff, !bool_decide_eq_true.
  intros (_ & _ & _ & _ & H10 & H26 & _).
  rewrite H10, H26. split; vm_compute; discriminate.
Qed.




(** ** Stringification *)






(** ** Authentication *)

Lemma tokensFrom_app normalize m names1 names2 :
  tokensFrom normalize m (names1 ++ names2) =
  (tokensFrom normalize m names1 ++ tokensFrom normalize m names2)%list.
Proof. apply flat_map_app. Qed.

Lemma tokensFrom_cons normalize m name names :
  tokensFrom normalize m (name :: names) =
  ((if bool_decide (carrierValue m name = "") then []
    else [normalize (carrierValue m name)]) ++ tokensFrom normalize m names)%list.
Proof. reflexivity. Qed.

Lemma tokensFrom_at normalize m pre name post :
  carrierValue m name ≠ "" →
  tokensFrom normalize m (pre ++ name :: post) =
  (tokensFrom normalize m pre ++
   normalize (carrierValue m name) :: tokensFrom normalize m post)%list.
Proof.
  intros Hvalue. rewrite tokensFrom_app, tokensFrom_cons.
  by rewrite bool_decide_eq_false_2.
Qed.

Lemma tokensFrom_elem normalize m (names : list string) name :
  name ∈ names → carrierValue m name ≠ "" →
  normalize (carrierValue m name) ∈ tokensFrom normalize m names.
Proof.
  intros (pre & post & ->)%list_elem_of_split Hvalue.
  rewrite (tokensFrom_at _ _ _ _ _ Hvalue).
  apply elem_of_app. right. left.
Qed.

Lemma tokensFrom_passedOver auth normalize m names :
  Forall (passedOver auth normalize m) names →
  Forall (fun p => ∃ e, auth p = inl e) (tokensFrom normalize m names).
Proof.
  induction 1 as [|name names Hname _ IH]; [constructor|].
  rewrite tokensFrom_cons. case_bool_decide as Hvalue; simpl; [done|].
  constructor; [|done]. by destruct Hname.
Qed.

Lemma substring_all s : substring 0 (String.length s) s = s.
Proof. induction s as [|c s IH]; simpl; [done | by rewrite IH]. Qed.

Lemma stripBearer_prefixed token : stripBearer ("Bearer " +:+ token) = token.
Proof.
  unfold stripBearer.
  change ("Bearer " +:+ token)
    with (String "B" (String "e" (String "a" (String "r" (String "e"
           (String "r" (String " " token))))))).
  cbn. replace (String.prefix "" token) with true by (by destruct token).
  rewrite Nat.sub_0_r. apply substring_all.
Qed.




Section AuthenticateFacts.

Variable formatTime : Z → Z → string.
Variable EqualFold : string → string → bool.
Variable parseVerified : string → option Token.
Variable now : Z.

Abbreviation authToken :=
  (authenticateToken formatTime EqualFold parseVerified now).
Abbreviation tryAll := (tryTokens formatTime EqualFold parseVerified now).

Lemma tryTokens_first_accepted ja pre raw post user err :
  Forall (fun p => ∃ e, authToken ja p = inl e) pre →
  authToken ja raw = inr user →
  tryAll ja (pre ++ raw :: post) err = (user, true, None).
Proof.
  intros Hpre Hraw. revert err.
  induction Hpre as [|p pre [e He] _ IH]; intros err; simpl.
  - by rewrite Hraw.
  - rewrite He. apply IH.
Qed.

Lemma tryTokens_some_accepted ja raws raw user err :
  raw ∈ raws → authToken ja raw = inr user →
  ∃ user', tryAll ja raws err = (user', true, None).
Proof.
  intros Hin Hraw. revert err.
  induction raws as [|r raws IH]; intros err; [by apply elem_of_nil in Hin|].
  simpl.
  destruct (authToken ja r) as [e|u] eqn:Hr; [|by exists u].
  apply elem_of_cons in Hin as [-> | Hin]; [congruence | by apply IH].
Qed.

Lemma tryTokens_none_accepted ja raws err :
  Forall (fun p => ∃ e, authToken ja p = inl e) raws →
  ∃ e, tryAll ja raws err = (emptyUser, false, Some e).
Proof.
  intros Hall. revert err.
  induction Hall as [|p raws [e He] _ IH]; intros err; simpl.
  - by exists err.
  - rewrite He. apply IH.
Qed.





End AuthenticateFacts.



(** C4 (as amended).  [Authenticate] tries the configured headers in order
    (a header value loses a leading "Bearer "), then the query parameters
    in order, then the cookies in order, and passes over a carrier that is
    empty or whose token is rejected.  The first carrier whose token
    passes parsing, verification, validation and the identity projection
    gives the user; so authentication succeeds as soon as one carrier holds
    such a token, and fails when every carrier is passed over. *)
Theorem authenticate_first_accepted_carrier
    (formatTime : Z → Z → string) (EqualFold : string → string → bool)
    (parseVerified : string → option Token) (now : Z)
    (ja : JWTAuth) (r : Request) :
  let auth := authenticateToken formatTime EqualFold parseVerified now ja in
  let result := Authenticate formatTime EqualFold parseVerified now ja r in
  (∀ pre name post user,
     ja.(FromHeader) = (pre ++ name :: post)%list →
     Forall (passedOver auth stripBearer r.(Header)) pre →
     carrierValue r.(Header) name ≠ "" →
     auth (stripBearer (carrierValue r.(Header) name)) = inr user →
     result = (user, true, None)) ∧
  (∀ pre name post user,
     ja.(FromQuery) = (pre ++ name :: post)%list →
     Forall (passedOver auth stripBearer r.(Header)) ja.(FromHeader) →
     Forall (passedOver auth id r.(Query)) pre →
     carrierValue r.(Query) name ≠ "" →
     auth (carrierValue r.(Query) name) = inr user →
     result = (user, true, None)) ∧
  (∀ pre name post user,
     ja.(FromCookies) = (pre ++ name :: post)%list →
     Forall (passedOver auth stripBearer r.(Header)) ja.(FromHeader) →
     Forall (passedOver auth id r.(Query)) ja.(FromQuery) →
     Forall (passedOver auth id r.(Cookies)) pre →
     carrierValue r.(Cookies) name ≠ "" →
     auth (carrierValue r.(Cookies) name) = inr user →
     result = (user, true, None)) ∧
  (∀ name user,
     (name ∈ ja.(FromHeader) ∧ carrierValue r.(Header) name ≠ "" ∧
      auth (stripBearer (carrierValue r.(Header) name)) = inr user) ∨
     (name ∈ ja.(FromQuery) ∧ carrierValue r.(Query) name ≠ "" ∧
      auth (carrierValue r.(Query) name) = inr user) ∨
     (name ∈ ja.(FromCookies) ∧ carrierValue r.(Cookies) name ≠ "" ∧
      auth (carrierValue r.(Cookies) name) = inr user) →
     ∃ user', result = (user', true, None)) ∧
  (Forall (passedOver auth stripBearer r.(Header)) ja.(FromHeader) →
   Forall (passedOver auth id r.(Query)) ja.(FromQuery) →
   Forall (passedOver auth id r.(Cookies)) ja.(FromCookies) →
   ∃ e, result = (emptyUser, false, Some e)) ∧
  (∀ token, stripBearer ("Bearer " +:+ token) = token) ∧
  (∀ v, String.prefix "Bearer " v = false → stripBearer v = v).
Proof.
  intros auth result. subst auth result. unfold Authenticate, candidates.
  split; [|split; [|split; [|split; [|split; [|split]]]]].
  - intros pre name post user -> Hpre Hvalue Hauth.
    rewrite (tokensFrom_at _ _ _ _ _ Hvalue), <- app_assoc. simpl.
    apply tryTokens_first_accepted; [|done].
    by apply tokensFrom_passedOver.
  - intros pre name post user -> Hheaders Hpre Hvalue Hauth.
    rewrite (tokensFrom_at _ _ _ _ _ Hvalue), <- (app_assoc _ _ (tokensFrom _ _ _)).
    rewrite app_assoc. simpl.
    apply tryTokens_first_accepted; [|done].
    apply Forall_app. split; by apply tokensFrom_passedOver.
  - intros pre name post user -> Hheaders Hqueries Hpre Hvalue Hauth.
    rewrite (tokensFrom_at _ _ _ _ _ Hvalue), !app_assoc.
    apply tryTokens_first_accepted; [|done].
    repeat (apply Forall_app; split); by apply tokensFrom_passedOver.
  - intros name user [(Hin & Hvalue & Hauth) | [(Hin & Hvalue & Hauth) |
                                               (Hin & Hvalue & Hauth)]];
      (eapply tryTokens_some_accepted; [|exact Hauth]);
      rewrite !elem_of_app.
    + left. by apply tokensFrom_elem.
    + right; left. by apply (tokensFrom_elem id).
    + right; right. by apply (tokensFrom_elem id).
  - intros Hheaders Hqueries Hcookies. apply tryTokens_none_accepted.
    repeat (apply Forall_app; split); by apply tokensFrom_passedOver.
  - apply stripBearer_prefixed.
  - intros v Hprefix. unfold stripBearer. by rewrite Hprefix.
Qed.

Lemma authenticate_first_accepted_carrier_witness :
  Authenticate testTimeText asciiEqualFold (issued subjectClaims) 0
    fromQueryAuth invalidThenValidQuery
    = ({| ID := "ggicci"; Metadata := ∅ |}, true, None) ∧
  Authenticate testTimeText asciiEqualFold (issued subjectClaims) 0
    headerAndQueryAuth bearerRequest
    = ({| ID := "ggicci"; Metadata := ∅ |}, true, None).
Proof.
  split.
  - destruct (authenticate_first_accepted_carrier testTimeText asciiEqualFold
                (issued subjectClaims) 0 fromQueryAuth invalidThenValidQuery)
      as (_ & Hquery & _).
    apply (Hquery ["access_token"] "token" []).
    + reflexivity.
    + constructor.
    + constructor; [|constructor]. right. by exists ErrInvalidToken.
    + vm_compute. discriminate.
    + reflexivity.
  - destruct (authenticate_first_accepted_carrier testTimeText asciiEqualFold
                (issued subjectClaims) 0 headerAndQueryAuth bearerRequest)
      as (Hheader & _).
    apply (Hheader ["X-Api-Token"] "Authorization" []).
    + reflexivity.
    + constructor; [|constructor]. left. reflexivity.
    + vm_compute. discriminate.
    + reflexivity.
Defined.

(** C4 (as stated) fails: the only located token is parsed, verified and
    validated, and authentication fails all the same, because none of the
    configured ID claims gives a user ID (the third case of
    [TestAuthenticate_CustomUserClaims]). *)
Lemma verified_token_without_identity_fails :
  candidates (userClaimsAuth ["uid"; "user_id"]) authorizationRequest
    = [tokenString] ∧
  issued usernameOnlyClaims tokenString
    = Some (buildToken usernameOnlyClaims) ∧
  validateToken asciiEqualFold 0 (userClaimsAuth ["uid"; "user_id"])
    (buildToken usernameOnlyClaims) = None ∧
  Authenticate testTimeText asciiEqualFold (issued usernameOnlyClaims) 0
    (userClaimsAuth ["uid"; "user_id"]) authorizationRequest
    = (emptyUser, false, Some ErrEmptyUserClaim).
Proof. repeat split; reflexivity. Qed.





(** ** Further properties of the validators *)

Lemma rangeUntil_Some_iff test l err :
  rangeUntil test l err = Some err ↔ ∀ x, x ∈ l → test x = false.
Proof.
  split; [|apply rangeUntil_Some].
  intros Hsome x Hx. destruct (test x) eqn:Htest; [|done].
  assert (rangeUntil test l err = None) as Hnone
    by (apply rangeUntil_None; by exists x).
  congruence.
Qed.

Lemma exact_Validate_unfold n v t :
  ValidatorGo.Validate (ValidatorGo.ClaimContainsString n v) t =
  match Get t n with
  | None => Some (NewValidationError (ErrClaimNotFound n))
  | Some x =>
    match assertList x with
    | None => Some (NewValidationError (ErrClaimNotList n (typeName x)))
    | Some l =>
      rangeUntil (fun e => ifaceEqString e v) l
        (NewValidationError (ErrNotSatisfied n))
    end
  end.
Proof. reflexivity. Qed.

Lemma fold_Validate_unfold EqualFold n v t :
  ValidatorFold.Validate EqualFold (ValidatorFold.ClaimContainsString n v) t =
  match Get t n with
  | None => Some (NewValidationError (ErrClaimNotFound n))
  | Some x =>
    match assertList x with
    | None => Some (NewValidationError (ErrClaimNotList n (typeName x)))
    | Some l =>
      rangeUntil (ValidatorFold.elemMatches EqualFold v) l
        (NewValidationError (ErrNotSatisfied n))
    end
  end.
Proof. reflexivity. Qed.

Lemma ignoreCase_Validate_unfold EqualFold n v t :
  ValidatorFold.ValidateIgnoreCase EqualFold
    (ValidatorFold.ClaimValueIsStringIgnoreCase n v) t =
  match Get t n with
  | None => Some (NewValidationError (ErrClaimDoesNotExist n))
  | Some x =>
    match assertString x with
    | None => Some (NewValidationError (ErrClaimNotString n))
    | Some vs =>
      if negb (EqualFold vs v)
      then Some (NewValidationError (ErrValuesDoNotMatch n))
      else None
    end
  end.
Proof. reflexivity. Qed.

Lemma assertList_None x : assertList x = None ↔ ∀ l, x ≠ VList l.
Proof.
  destruct x; simpl; split; try done.
  intros H. by destruct (H elems).
Qed.

Lemma elemMatches_false EqualFold expected (l : list Value) :
  (∀ x, x ∈ l → ValidatorFold.elemMatches EqualFold expected x = false) ↔
  (∀ s, VString s ∈ l → EqualFold s expected = false).
Proof.
  split.
  - intros H s Hs. exact (H (VString s) Hs).
  - intros H x Hx. destruct x; try done. by apply H.
Qed.

Lemma ifaceEqString_false v (l : list Value) :
  (∀ x, x ∈ l → ifaceEqString x v = false) ↔ VString v ∉ l.
Proof.
  split.
  - intros H Hin. specialize (H _ Hin). simpl in H.
    by rewrite bool_decide_eq_true_2 in H.
  - intros Hnot x Hx. destruct (ifaceEqString x v) eqn:Heq; [|done].
    apply ifaceEqString_true in Heq as ->. done.
Qed.

(** X1.  The error of the contains-string validator names its reason
    exactly, in both revisions: "not found" is returned only for an absent
    claim, "must be a []interface{}" only for a present claim of another
    type (and it carries the name of that type), "not satisfied" only for a
    list without a matching element; there is no other outcome. *)
Theorem containsString_error_names_reason
    (EqualFold : string → string → bool) (t : Token) (n v : string) :
  let exact := ValidatorGo.Validate (ValidatorGo.ClaimContainsString n v) t in
  let fold :=
    ValidatorFold.Validate EqualFold (ValidatorFold.ClaimContainsString n v) t in
  ((exact = Some (NewValidationError (ErrClaimNotFound n)) ↔ Get t n = None) ∧
   (fold = Some (NewValidationError (ErrClaimNotFound n)) ↔ Get t n = None)) ∧
  (∀ ty,
     (exact = Some (NewValidationError (ErrClaimNotList n ty)) ↔
      ∃ x, Get t n = Some x ∧ assertList x = None ∧ typeName x = ty) ∧
     (fold = Some (NewValidationError (ErrClaimNotList n ty)) ↔
      ∃ x, Get t n = Some x ∧ assertList x = None ∧ typeName x = ty)) ∧
  ((exact = Some (NewValidationError (ErrNotSatisfied n)) ↔
    ∃ l, Get t n = Some (VList l) ∧ VString v ∉ l) ∧
   (fold = Some (NewValidationError (ErrNotSatisfied n)) ↔
    ∃ l, Get t n = Some (VList l) ∧
         ∀ s, VString s ∈ l → EqualFold s v = false)) ∧
  ((exact = None ∨ exact = Some (NewValidationError (ErrClaimNotFound n)) ∨
    (∃ x, exact = Some (NewValidationError (ErrClaimNotList n (typeName x)))) ∨
    exact = Some (NewValidationError (ErrNotSatisfied n))) ∧
   (fold = None ∨ fold = Some (NewValidationError (ErrClaimNotFound n)) ∨
    (∃ x, fold = Some (NewValidationError (ErrClaimNotList n (typeName x)))) ∨
    fold = Some (NewValidationError (ErrNotSatisfied n)))).
Proof.
  intros exact fold. subst exact fold.
  rewrite exact_Validate_unfold, fold_Validate_unfold.
  set (errNS := NewValidationError (ErrNotSatisfied n)).
  destruct (Get t n) as [x|] eqn:Hget.
  - destruct (assertList x) as [l|] eqn:Hlist.
    + assert (x = VList l) as -> by (destruct x; simplify_eq/=; done).
      pose proof (rangeUntil_cases (fun e => ifaceEqString e v) l errNS)
        as Hexact.
      pose proof (rangeUntil_cases (ValidatorFold.elemMatches EqualFold v)
                    l errNS) as Hfold.
      repeat split; try (by destruct Hexact as [-> | ->]);
        try (by destruct Hfold as [-> | ->]);
        try (by intros (? & [= <-] & [=] & _)).
      * intros Hns. exists l. split; [done|].
        apply ifaceEqString_false.
        exact (proj1 (rangeUntil_Some_iff _ _ _) Hns).
      * intros (l' & [= <-] & Hnot).
        apply rangeUntil_Some_iff. by apply ifaceEqString_false.
      * intros Hns. exists l. split; [done|].
        apply elemMatches_false.
        exact (proj1 (rangeUntil_Some_iff _ _ _) Hns).
      * intros (l' & [= <-] & Hnot).
        apply rangeUntil_Some_iff. by apply elemMatches_false.
      * destruct Hexact as [-> | ->]; [by left | by do 3 right].
      * destruct Hfold as [-> | ->]; [by left | by do 3 right].
    + repeat split; try done;
        try (by intros [= <-]; exists x);
        try (by intros (? & [= <-] & _ & <-));
        try (intros (l & [= ->] & _); by simpl in Hlist);
        right; right; left; by exists x.
  - repeat split; try done;
      try (by intros (? & [=] & _)); right; by left.
Qed.

(** X2.  The error of the equals-string-ignore-case validator names its
    reason exactly: "does not exist" only for an absent claim, "not a
    string" only for a present claim of another type, "values do not
    match" only for a string that [strings.EqualFold] does not match; there
    is no other outcome. *)
Theorem equalsIgnoreCase_error_names_reason
    (EqualFold : string → string → bool) (t : Token) (n v : string) :
  let result :=
    ValidatorFold.ValidateIgnoreCase EqualFold
      (ValidatorFold.ClaimValueIsStringIgnoreCase n v) t in
  (result = Some (NewValidationError (ErrClaimDoesNotExist n)) ↔
   Get t n = None) ∧
  (result = Some (NewValidationError (ErrClaimNotString n)) ↔
   ∃ x, Get t n = Some x ∧ assertString x = None) ∧
  (result = Some (NewValidationError (ErrValuesDoNotMatch n)) ↔
   ∃ vs, Get t n = Some (VString vs) ∧ EqualFold vs v = false) ∧
  (result = None ∨
   result = Some (NewValidationError (ErrClaimDoesNotExist n)) ∨
   result = Some (NewValidationError (ErrClaimNotString n)) ∨
   result = Some (NewValidationError (ErrValuesDoNotMatch n))).
Proof.
  intros result. subst result. rewrite ignoreCase_Validate_unfold.
  destruct (Get t n) as [x|] eqn:Hget.
  - destruct (assertString x) as [vs|] eqn:Hstr.
    + assert (x = VString vs) as -> by (destruct x; simplify_eq/=; done).
      destruct (EqualFold vs v) eqn:Hfold; simpl.
      * repeat split; try done.
        -- by intros (? & [= <-] & [=]).
        -- intros (? & [= <-] & ?). congruence.
        -- by left.
      * repeat split; try done.
        -- by intros (? & [= <-] & [=]).
        -- intros _. by exists vs.
        -- by do 3 right.
    + repeat split; try done.
      * intros _. by exists x.
      * intros (vs & [= ->] & _). by simpl in Hstr.
      * right; right; by left.
  - repeat split; try done.
    + by intros (? & [=] & _).
    + by intros (? & [=] & _).
    + right; by left.
Qed.

Lemma validate_same_claim EqualFold (t t' : Token) n v :
  Get t n = Get t' n →
  ValidatorGo.Validate (ValidatorGo.ClaimContainsString n v) t =
  ValidatorGo.Validate (ValidatorGo.ClaimContainsString n v) t' ∧
  ValidatorFold.Validate EqualFold (ValidatorFold.ClaimContainsString n v) t =
  ValidatorFold.Validate EqualFold (ValidatorFold.ClaimContainsString n v) t' ∧
  ValidatorFold.ValidateIgnoreCase EqualFold
    (ValidatorFold.ClaimValueIsStringIgnoreCase n v) t =
  ValidatorFold.ValidateIgnoreCase EqualFold
    (ValidatorFold.ClaimValueIsStringIgnoreCase n v) t'.
Proof.
  intros Hsame.
  rewrite !exact_Validate_unfold, !fold_Validate_unfold,
    !ignoreCase_Validate_unfold.
  by rewrite Hsame.
Qed.

(** X3.  A validator looks at the claim it names and at nothing else:
    setting or deleting any other claim of the token leaves the result of
    all three validators unchanged, error included. *)
Theorem validators_ignore_other_claims
    (EqualFold : string → string → bool) (t : Token) (n v k : string)
    (x : Value) :
  k ≠ n →
  (ValidatorGo.Validate (ValidatorGo.ClaimContainsString n v) (<[k:=x]> t) =
   ValidatorGo.Validate (ValidatorGo.ClaimContainsString n v) t ∧
   ValidatorFold.Validate EqualFold (ValidatorFold.ClaimContainsString n v)
     (<[k:=x]> t) =
   ValidatorFold.Validate EqualFold (ValidatorFold.ClaimContainsString n v) t ∧
   ValidatorFold.ValidateIgnoreCase EqualFold
     (ValidatorFold.ClaimValueIsStringIgnoreCase n v) (<[k:=x]> t) =
   ValidatorFold.ValidateIgnoreCase EqualFold
     (ValidatorFold.ClaimValueIsStringIgnoreCase n v) t) ∧
  (ValidatorGo.Validate (ValidatorGo.ClaimContainsString n v) (delete k t) =
   ValidatorGo.Validate (ValidatorGo.ClaimContainsString n v) t ∧
   ValidatorFold.Validate EqualFold (ValidatorFold.ClaimContainsString n v)
     (delete k t) =
   ValidatorFold.Validate EqualFold (ValidatorFold.ClaimContainsString n v) t ∧
   ValidatorFold.ValidateIgnoreCase EqualFold
     (ValidatorFold.ClaimValueIsStringIgnoreCase n v) (delete k t) =
   ValidatorFold.ValidateIgnoreCase EqualFold
     (ValidatorFold.ClaimValueIsStringIgnoreCase n v) t).
Proof.
  intros Hne. split; apply validate_same_claim; unfold Get.
  - by apply lookup_insert_ne.
  - by apply lookup_delete_ne.
Qed.

Lemma validators_ignore_other_claims_witness :
  ValidatorFold.Validate asciiEqualFold
    (ValidatorFold.ClaimContainsString "role" "TEST")
    (<["sub" := VNumber "42"]> arrayRoleToken) = None ∧
  ValidatorGo.Validate (ValidatorGo.ClaimContainsString "role" "TEST")
    (delete "iss" arrayRoleToken)
  = Some (NewValidationError (ErrNotSatisfied "role")).
Proof.
  destruct (validators_ignore_other_claims asciiEqualFold arrayRoleToken
              "role" "TEST" "sub" (VNumber "42")) as [(_ & Hfold & _) _];
    [discriminate|].
  destruct (validators_ignore_other_claims asciiEqualFold arrayRoleToken
              "role" "TEST" "iss" VNil) as [_ (Hexact & _)];
    [discriminate|].
  split.
  - rewrite Hfold. reflexivity.
  - rewrite Hexact. reflexivity.
Defined.

(** X4.  Growing the list never revokes: with the claim set to the
    concatenation of two lists the contains-string validator returns nil
    exactly when it does for one of the two lists, in both revisions. *)
Theorem containsString_append
    (EqualFold : string → string → bool) (t : Token) (n v : string)
    (l1 l2 : list Value) :
  (ValidatorGo.Validate (ValidatorGo.ClaimContainsString n v)
     (<[n := VList (l1 ++ l2)]> t) = None ↔
   ValidatorGo.Validate (ValidatorGo.ClaimContainsString n v)
     (<[n := VList l1]> t) = None ∨
   ValidatorGo.Validate (ValidatorGo.ClaimContainsString n v)
     (<[n := VList l2]> t) = None) ∧
  (ValidatorFold.Validate EqualFold (ValidatorFold.ClaimContainsString n v)
     (<[n := VList (l1 ++ l2)]> t) = None ↔
   ValidatorFold.Validate EqualFold (ValidatorFold.ClaimContainsString n v)
     (<[n := VList l1]> t) = None ∨
   ValidatorFold.Validate EqualFold (ValidatorFold.ClaimContainsString n v)
     (<[n := VList l2]> t) = None).
Proof.
  rewrite !exact_Validate_unfold, !fold_Validate_unfold. unfold Get.
  rewrite !lookup_insert_eq. simpl. rewrite !rangeUntil_None.
  split; (split;
    [ intros (x & [Hx | Hx]%elem_of_app & Hm); [left | right]; by exists x
    | intros [(x & Hx & Hm) | (x & Hx & Hm)]; exists x;
      (split; [apply elem_of_app; auto | done]) ]).
Qed.

(** X5.  The order of the list does not matter: for two lists that are
    permutations of each other the contains-string validator returns the
    same result, error included, in both revisions. *)
Theorem containsString_permutation
    (EqualFold : string → string → bool) (t : Token) (n v : string)
    (l l' : list Value) :
  l ≡ₚ l' →
  ValidatorGo.Validate (ValidatorGo.ClaimContainsString n v)
    (<[n := VList l]> t) =
  ValidatorGo.Validate (ValidatorGo.ClaimContainsString n v)
    (<[n := VList l']> t) ∧
  ValidatorFold.Validate EqualFold (ValidatorFold.ClaimContainsString n v)
    (<[n := VList l]> t) =
  ValidatorFold.Validate EqualFold (ValidatorFold.ClaimContainsString n v)
    (<[n := VList l']> t).
Proof.
  intros Hperm.
  assert (Hany : ∀ test err,
            rangeUntil test l err = rangeUntil test l' err).
  { intros test err.
    destruct (rangeUntil_cases test l err) as [Hl | Hl]; rewrite Hl; symmetry.
    - apply rangeUntil_None. apply rangeUntil_None in Hl as (x & Hx & Hm).
      exists x. by rewrite <- Hperm.
    - apply rangeUntil_Some_iff. intros x Hx. rewrite <- Hperm in Hx.
      exact (proj1 (rangeUntil_Some_iff _ _ _) Hl x Hx). }
  rewrite !exact_Validate_unfold, !fold_Validate_unfold. unfold Get.
  rewrite !lookup_insert_eq. simpl. by rewrite !Hany.
Qed.

Lemma containsString_permutation_witness :
  ValidatorFold.Validate asciiEqualFold
    (ValidatorFold.ClaimContainsString "role" "TEST")
    (<["role" := VList [VString "test"; VString "foo"]]> arrayRoleToken) =
  ValidatorFold.Validate asciiEqualFold
    (ValidatorFold.ClaimContainsString "role" "TEST")
    (<["role" := VList [VString "foo"; VString "test"]]> arrayRoleToken).
Proof.
  apply (containsString_permutation asciiEqualFold arrayRoleToken "role" "TEST"
           [VString "test"; VString "foo"] [VString "foo"; VString "test"]).
  apply perm_swap.
Defined.

Lemma rangeUntil_ext test test' (l : list Value) err :
  (∀ x, x ∈ l → test x = test' x) →
  rangeUntil test l err = rangeUntil test' l err.
Proof.
  induction l as [|y rest IH]; intros Hsame; simpl; [done|].
  rewrite <- (Hsame y) by left.
  destruct (test y); [done|]. apply IH. intros x Hx. apply Hsame. by right.
Qed.

(** X6.  The two validators of the second revision agree on a single
    value: the equals-string-ignore-case validator accepts the string [s]
    exactly when the contains-string validator accepts the one-element list
    that holds [s]. *)
Theorem equalsIgnoreCase_is_contains_of_singleton
    (EqualFold : string → string → bool) (t : Token) (n v s : string) :
  ValidatorFold.ValidateIgnoreCase EqualFold
    (ValidatorFold.ClaimValueIsStringIgnoreCase n v) (<[n := VString s]> t)
    = None ↔
  ValidatorFold.Validate EqualFold (ValidatorFold.ClaimContainsString n v)
    (<[n := VList [VString s]]> t) = None.
Proof.
  rewrite ignoreCase_Validate_unfold, fold_Validate_unfold. unfold Get.
  rewrite !lookup_insert_eq. simpl. unfold ValidatorFold.elemMatches. simpl.
  by destruct (EqualFold s v).
Qed.

(** X7.  No claim satisfies both validators of the second revision: when
    the contains-string validator returns nil, the equals-string-ignore-case
    validator for the same claim fails with "not a string", and when the
    latter returns nil, both revisions of the former fail with "must be a
    []interface{} (got string)", whatever the expected values are. *)
Theorem validators_exclude_each_other
    (EqualFold : string → string → bool) (t : Token) (n v v' : string) :
  (ValidatorFold.Validate EqualFold (ValidatorFold.ClaimContainsString n v) t
     = None →
   ValidatorFold.ValidateIgnoreCase EqualFold
     (ValidatorFold.ClaimValueIsStringIgnoreCase n v') t
     = Some (NewValidationError (ErrClaimNotString n))) ∧
  (ValidatorFold.ValidateIgnoreCase EqualFold
     (ValidatorFold.ClaimValueIsStringIgnoreCase n v') t = None →
   ValidatorFold.Validate EqualFold (ValidatorFold.ClaimContainsString n v) t
     = Some (NewValidationError (ErrClaimNotList n "string")) ∧
   ValidatorGo.Validate (ValidatorGo.ClaimContainsString n v) t
     = Some (NewValidationError (ErrClaimNotList n "string"))).
Proof.
  rewrite exact_Validate_unfold, fold_Validate_unfold,
    ignoreCase_Validate_unfold.
  destruct (Get t n) as [x|]; [|done].
  destruct x; simpl; done.
Qed.

Lemma validators_exclude_each_other_witness :
  ValidatorFold.ValidateIgnoreCase asciiEqualFold
    (ValidatorFold.ClaimValueIsStringIgnoreCase "role" "foo") arrayRoleToken
    = Some (NewValidationError (ErrClaimNotString "role")) ∧
  ValidatorGo.Validate (ValidatorGo.ClaimContainsString "role" "test")
    singleRoleToken
    = Some (NewValidationError (ErrClaimNotList "role" "string")).
Proof.
  split.
  - destruct (validators_exclude_each_other asciiEqualFold arrayRoleToken
                "role" "TEST" "foo") as [Hlist _].
    apply Hlist. reflexivity.
  - destruct (validators_exclude_each_other asciiEqualFold singleRoleToken
                "role" "test" "TEST") as [_ Hstring].
    apply Hstring. reflexivity.
Defined.

(** X8.  The two revisions of the contains-string validator differ only
    through the comparison: on a token where [strings.EqualFold] compares
    every string of the list with the expected value as [==] does, they
    return the same result, error included. *)
Theorem revisions_agree_where_fold_is_exact
    (EqualFold : string → string → bool) (t : Token) (n v : string) :
  (∀ l s, Get t n = Some (VList l) → VString s ∈ l →
          EqualFold s v = bool_decide (s = v)) →
  ValidatorFold.Validate EqualFold (ValidatorFold.ClaimContainsString n v) t =
  ValidatorGo.Validate (ValidatorGo.ClaimContainsString n v) t.
Proof.
  intros Hexact. rewrite exact_Validate_unfold, fold_Validate_unfold.
  destruct (Get t n) as [x|]; [|done].
  destruct x; simpl; try done.
  apply rangeUntil_ext. intros x Hx.
  destruct x; simpl; try done. by apply (Hexact elems).
Qed.

Lemma revisions_agree_where_fold_is_exact_witness :
  ValidatorFold.Validate asciiEqualFold
    (ValidatorFold.ClaimContainsString "role" "test") arrayRoleToken =
  ValidatorGo.Validate (ValidatorGo.ClaimContainsString "role" "test")
    arrayRoleToken.
Proof.
  apply (revisions_agree_where_fold_is_exact asciiEqualFold arrayRoleToken
           "role" "test").
  intros l s Hget Hs.
  assert (l = [VString "foo"; VString "test"]) as ->
    by (vm_compute in Hget; congruence).
  apply elem_of_cons in Hs as [[= ->] | Hs]; [reflexivity|].
  apply elem_of_cons in Hs as [[= ->] | Hs]; [reflexivity|].
  by apply elem_of_nil in Hs.
Defined.
